(** * momma-bear: acceptance scenarios, login loader and deployment pipeline

    The development has three parts.

    - [Critical]: the four browser scenarios of [tests/e2e/critical.spec.js],
      written in a small state-and-rejection monad over the page, with the
      browser and the site under test as an oracle.
    - [AccountLogin]: the loader of [app/routes/account_.login.jsx].
    - [Workflows]: the step lists the workflow README documents for
      [ci.yml], [deploy-pr.yml] and [merge-queue.yml], run by a sequential
      step runner, and the rollback agent the specification describes. *)

From Stdlib Require Import String ZArith List Bool Lia.
From stdpp Require Import base option list gmap strings.
Import ListNotations.
Local Open Scope string_scope.
Local Open Scope Z_scope.
Local Open Scope list_scope.

(** ** Regular expressions used by the scenarios

    [/Hydrogen/] and [/collections/] are plain literals: a string matches
    when the literal occurs somewhere in it. *)

Fixpoint includes (needle hay : string) : bool :=
  if String.prefix needle hay then true
  else match hay with
       | EmptyString => false
       | String _ rest => includes needle rest
       end.

Module Critical.

(** *** Locators *)

Inductive Locator : Type :=
| locator (selector : string)
| getByRole (role : string) (name_re : string)   (* name: /name_re/i *)
| first (l : Locator).

(** *** The site as the browser sees it

    A loaded document answers the queries the scenarios make.  Retrying
    assertions ([toHaveTitle], [toHaveURL], [toBeVisible]) poll until their
    timeout: [doc_title_polls d t] and [doc_url_polls d t] are the values
    seen by the polls made within [t] milliseconds, [doc_visible_within d l t]
    says whether [l] became visible within [t] milliseconds. *)

Inductive AttrResult : Type :=
| AttrTimeout
| AttrValue (v : option string).

Record Document : Type := {
  doc_title_polls : Z -> list string;
  doc_url_polls : Z -> list string;
  doc_networkidle : bool;
  doc_visible_within : Locator -> Z -> bool;
  doc_count : Locator -> nat;
  doc_getAttribute : Locator -> string -> AttrResult
}.

Record Response : Type := { status : Z }.

(** [page.goto(url)] rejects, or resolves to a response or to [null]; in both
    resolved cases the page then shows a document. *)
Inductive Navigation : Type :=
| NavRejected
| NavResolved (r : option Response) (d : Document).

Definition Site : Type := string -> Navigation.

Definition about_blank : Document :=
  {| doc_title_polls := fun _ => [""];
     doc_url_polls := fun _ => ["about:blank"];
     doc_networkidle := true;
     doc_visible_within := fun _ _ => false;
     doc_count := fun _ => 0%nat;
     doc_getAttribute := fun _ _ => AttrTimeout |}.

(** *** What a scenario does, and where it stops *)

Inductive Matcher : Type :=
| toBe (got : option Z) (want : Z)
| toHaveTitle (re : string) (timeout : Z)
| toHaveURL (re : string) (timeout : Z)
| toBeVisible (l : Locator) (timeout : Z)
| toBeGreaterThan (got want : nat)
| toBeTruthy (got : option string).

Inductive Action : Type :=
| goto (url : string)
| waitForLoadState (state : string)
| count (l : Locator)
| getAttribute (l : Locator) (name : string)
| expect (m : Matcher)
| throw (msg : string).

Record Page : Type := {
  document : Document;
  log : list Action
}.

Inductive Result (A : Type) : Type :=
| resolved (a : A)
| rejected (at_ : Action).
Arguments resolved {A} a.
Arguments rejected {A} at_.

(** An [async] test body: it reads and replaces the page's document, appends
    to the log of actions, and either resolves or rejects. *)
Definition Test (A : Type) : Type := Page -> Result A * Page.

Definition ret {A} (a : A) : Test A := fun p => (resolved a, p).

Definition bind {A B} (m : Test A) (k : A -> Test B) : Test B :=
  fun p => match m p with
           | (resolved a, p') => k a p'
           | (rejected e, p') => (rejected e, p')
           end.

Notation "x <- m ;; k" := (bind m (fun x => k))
  (at level 100, m at next level, right associativity).
Notation "m ;; k" := (bind m (fun _ => k))
  (at level 100, right associativity).

Definition record (a : Action) : Test unit :=
  fun p => (resolved tt, {| document := document p; log := log p ++ [a] |}).

Definition reject {A} (a : Action) : Test A := fun p => (rejected a, p).

(** [promise.catch(() => v)] *)
Definition catch {A} (m : Test A) (v : A) : Test A :=
  fun p => match m p with
           | (resolved a, p') => (resolved a, p')
           | (rejected _, p') => (resolved v, p')
           end.

Section Scenarios.

Variable site : Site.

(** *** Page operations *)

Definition page_goto (url : string) : Test (option Response) :=
  record (goto url) ;;
  match site url with
  | NavRejected => reject (goto url)
  | NavResolved r d =>
      fun p => (resolved r, {| document := d; log := log p |})
  end.

Definition page_waitForLoadState (state : string) : Test unit :=
  record (waitForLoadState state) ;;
  fun p => if doc_networkidle (document p)
           then (resolved tt, p)
           else (rejected (waitForLoadState state), p).

Definition locator_count (l : Locator) : Test nat :=
  record (count l) ;;
  fun p => (resolved (doc_count (document p) l), p).

Definition locator_getAttribute (l : Locator) (name : string)
  : Test (option string) :=
  record (getAttribute l name) ;;
  fun p => match doc_getAttribute (document p) l name with
           | AttrTimeout => (rejected (getAttribute l name), p)
           | AttrValue v => (resolved v, p)
           end.

(** [response?.status()] *)
Definition opt_status (r : option Response) : option Z :=
  match r with
  | Some r => Some (status r)
  | None => None
  end.

(** JavaScript truthiness of a [string | null]: [null] and the empty string
    are falsy.  Where the source uses such a value as a string after a
    truthiness test, the model writes [default "" v]. *)
Definition truthy (v : option string) : bool :=
  match v with
  | None => false
  | Some EmptyString => false
  | Some (String _ _) => true
  end.

(** *** Assertions: [expect(...)] throws when the matcher does not hold *)

Definition holds (d : Document) (m : Matcher) : bool :=
  match m with
  | toBe got want =>
      match got with
      | Some s => Z.eqb s want
      | None => false
      end
  | toHaveTitle re t => existsb (includes re) (doc_title_polls d t)
  | toHaveURL re t => existsb (includes re) (doc_url_polls d t)
  | toBeVisible l t => doc_visible_within d l t
  | toBeGreaterThan got want => Nat.ltb want got
  | toBeTruthy got => truthy got
  end.

Definition expect_ (m : Matcher) : Test unit :=
  record (expect m) ;;
  fun p => if holds (document p) m
           then (resolved tt, p)
           else (rejected (expect m), p).

Definition throw_ {A} (msg : string) : Test A :=
  record (throw msg) ;;
  reject (throw msg).

(** *** The scenarios of [critical.spec.js] *)

(** The selector [.featured-collection, a[href*=<q>/collections/<q>]], where
    [<q>] is the double-quote character (code 34). *)
Definition featured_collection_selector : string :=
  ".featured-collection, a[href*="
  ++ String (Ascii.ascii_of_nat 34)
       ("/collections/" ++ String (Ascii.ascii_of_nat 34) "]").

Definition app_loads_successfully : Test unit :=
  response <- page_goto "/" ;;
  expect_ (toBe (opt_status response) 200) ;;
  page_waitForLoadState "networkidle" ;;
  expect_ (toHaveTitle "Hydrogen" 10000).

Definition homepage_renders_products : Test unit :=
  response <- page_goto "/" ;;
  expect_ (toBe (opt_status response) 200) ;;
  page_waitForLoadState "networkidle" ;;
  let recommendedProductsHeading :=
    getByRole "heading" "recommended products" in
  expect_ (toBeVisible recommendedProductsHeading 15000) ;;
  let productsGrid := locator ".recommended-products-grid" in
  expect_ (toBeVisible productsGrid 15000) ;;
  let productLinks := locator ".product-item" in
  count <- locator_count productLinks ;;
  expect_ (toBeGreaterThan count 0) ;;
  expect_ (toBeVisible (first productLinks) 10000).

Definition product_page_loads_and_renders_product_details : Test unit :=
  response <- page_goto "/" ;;
  expect_ (toBe (opt_status response) 200) ;;
  page_waitForLoadState "networkidle" ;;
  expect_ (toBeVisible (locator ".recommended-products-grid") 15000) ;;
  let productLink := first (locator ".product-item") in
  expect_ (toBeVisible productLink 10000) ;;
  productUrl <- locator_getAttribute productLink "href" ;;
  expect_ (toBeTruthy productUrl) ;;
  (if negb (truthy productUrl)
   then throw_ "No product URL found on homepage"
   else ret tt) ;;
  productResponse <- page_goto (default "" productUrl) ;;
  expect_ (toBe (opt_status productResponse) 200) ;;
  page_waitForLoadState "networkidle" ;;
  expect_ (toBeVisible (locator "h1") 10000) ;;
  expect_ (toBeVisible (locator ".product") 10000).

Definition collections_page_loads_and_displays_products : Test unit :=
  response <- page_goto "/" ;;
  expect_ (toBe (opt_status response) 200) ;;
  page_waitForLoadState "networkidle" ;;
  let collectionLink :=
    first (locator featured_collection_selector) in
  collectionHref <- catch (locator_getAttribute collectionLink "href") None ;;
  if truthy collectionHref then
    collectionResponse <- page_goto (default "" collectionHref) ;;
    expect_ (toBe (opt_status collectionResponse) 200) ;;
    page_waitForLoadState "networkidle" ;;
    expect_ (toBeVisible (locator "h1") 15000) ;;
    let productsGrid := locator ".products-grid" in
    expect_ (toBeVisible productsGrid 15000)
  else
    collectionsResponse <- page_goto "/collections" ;;
    expect_ (toBe (opt_status collectionsResponse) 200) ;;
    expect_ (toHaveURL "collections" 10000).

End Scenarios.

(** *** Running a scenario *)

Inductive Outcome : Type :=
| passed
| failed (at_ : Action).

Definition run (t : Site -> Test unit) (site : Site) : Outcome * list Action :=
  match t site {| document := about_blank; log := [] |} with
  | (resolved _, p) => (passed, log p)
  | (rejected a, p) => (failed a, log p)
  end.

Definition outcome (t : Site -> Test unit) (site : Site) : Outcome :=
  fst (run t site).

Definition trace (t : Site -> Test unit) (site : Site) : list Action :=
  snd (run t site).

(** The [test.describe('Critical E2E Tests', ...)] block. *)
Definition critical_e2e_tests : list (string * (Site -> Test unit)) :=
  [ ("app loads successfully", app_loads_successfully);
    ("homepage renders products", homepage_renders_products);
    ("product page loads and renders product details",
     product_page_loads_and_renders_product_details);
    ("collections page loads and displays products",
     collections_page_loads_and_displays_products) ].

(** *** What the site answers for a path *)

Definition response_status (site : Site) (url : string) : option Z :=
  match site url with
  | NavRejected => None
  | NavResolved r _ => opt_status r
  end.

Definition landed (site : Site) (url : string) : option Document :=
  match site url with
  | NavRejected => None
  | NavResolved _ d => Some d
  end.

Definition title_has (re : string) (t : Z) (od : option Document) : bool :=
  match od with
  | Some d => existsb (includes re) (doc_title_polls d t)
  | None => false
  end.

Definition url_has (re : string) (t : Z) (od : option Document) : bool :=
  match od with
  | Some d => existsb (includes re) (doc_url_polls d t)
  | None => false
  end.

Definition networkidle (od : option Document) : bool :=
  match od with
  | Some d => doc_networkidle d
  | None => false
  end.

Definition visible (l : Locator) (t : Z) (od : option Document) : bool :=
  match od with
  | Some d => doc_visible_within d l t
  | None => false
  end.

Definition items (l : Locator) (od : option Document) : nat :=
  match od with
  | Some d => doc_count d l
  | None => 0%nat
  end.

(** The attribute as the scenario receives it: [Some v] when
    [getAttribute] resolves to [v] (a string or [null]), [None] when it
    rejects or no document is loaded. *)
Definition attribute (l : Locator) (name : string) (od : option Document)
  : option (option string) :=
  match od with
  | Some d => match doc_getAttribute d l name with
              | AttrValue v => Some v
              | AttrTimeout => None
              end
  | None => None
  end.

(** The value of [collectionHref] in the collections scenario: the [href] of
    the first collection link on the homepage, [null] when the lookup
    rejects. *)
Definition collection_href (site : Site) : option string :=
  match attribute (first (locator featured_collection_selector)) "href"
          (landed site "/") with
  | Some v => v
  | None => None
  end.

(** *** Example sites *)

(** The nominal storefront: every page answers 200, is titled for the app,
    reaches network idle, shows what is asked for and links to a product. *)
Definition healthy_document (href : option string) : Document :=
  {| doc_title_polls := fun _ => ["Hydrogen | Home"];
     doc_url_polls := fun _ => ["/collections"];
     doc_networkidle := true;
     doc_visible_within := fun _ _ => true;
     doc_count := fun _ => 4%nat;
     doc_getAttribute := fun _ _ => AttrValue href |}.

Definition healthy_site : Site :=
  fun _ => NavResolved (Some {| status := 200 |})
             (healthy_document (Some "/products/snowboard")).

(** Root answers 200 with the expected title, but the page keeps the network
    busy and never reaches the [networkidle] load state. *)
Definition busy_site : Site :=
  fun _ => NavResolved (Some {| status := 200 |})
    {| doc_title_polls := fun _ => ["Hydrogen | Home"];
       doc_url_polls := fun _ => ["/"];
       doc_networkidle := false;
       doc_visible_within := fun _ _ => true;
       doc_count := fun _ => 4%nat;
       doc_getAttribute := fun _ _ => AttrValue (Some "/products/snowboard") |}.

(** The homepage shows the products section and its grid, but the grid holds
    no product item. *)
Definition empty_listing_site : Site :=
  fun _ => NavResolved (Some {| status := 200 |})
    {| doc_title_polls := fun _ => ["Hydrogen | Home"];
       doc_url_polls := fun _ => ["/"];
       doc_networkidle := true;
       doc_visible_within := fun l _ =>
         match l with first _ => false | _ => true end;
       doc_count := fun _ => 0%nat;
       doc_getAttribute := fun _ _ => AttrTimeout |}.

(** Product items are shown, but the first one carries no [href]. *)
Definition no_href_site : Site :=
  fun _ => NavResolved (Some {| status := 200 |}) (healthy_document None).

(** No collection link on the homepage; [/collections] answers 200 and keeps
    its URL, but shows no product grid (nothing but the page header). *)
Definition no_grid_document : Document :=
  {| doc_title_polls := fun _ => ["Hydrogen | Collections"];
     doc_url_polls := fun _ => ["/collections"];
     doc_networkidle := true;
     doc_visible_within := fun _ _ => false;
     doc_count := fun _ => 0%nat;
     doc_getAttribute := fun _ _ => AttrValue None |}.

Definition no_collection_link_site : Site :=
  fun url =>
    if String.eqb url "/collections"
    then NavResolved (Some {| status := 200 |}) no_grid_document
    else NavResolved (Some {| status := 200 |}) (healthy_document None).

(** The navigation to the root resolves to [null]. *)
Definition null_response_site : Site :=
  fun _ => NavResolved None (healthy_document (Some "/products/snowboard")).

(** *** Checks on a trace *)

Definition option_Z_eqb (a b : option Z) : bool :=
  match a, b with
  | Some x, Some y => Z.eqb x y
  | None, None => true
  | _, _ => false
  end.

(** Every navigation of the trace either rejected, and is then the last
    action, or is directly followed by the assertion that the status of its
    own response is 200. *)
Fixpoint navigations_checked (site : Site) (tr : list Action) : bool :=
  match tr with
  | [] => true
  | goto u :: rest =>
      match site u, rest with
      | NavRejected, [] => true
      | NavResolved r _, expect (toBe got want) :: _ =>
          option_Z_eqb got (opt_status r) && Z.eqb want 200
          && navigations_checked site rest
      | _, _ => false
      end
  | _ :: rest => navigations_checked site rest
  end.

(** A navigation that resolved to [null] is followed by the failing status
    assertion and by nothing else. *)
Fixpoint stops_at_null_response (site : Site) (tr : list Action) : bool :=
  match tr with
  | [] => true
  | goto u :: rest =>
      match site u with
      | NavResolved None _ =>
          match rest with
          | [expect (toBe None want)] => Z.eqb want 200
          | _ => false
          end
      | _ => stops_at_null_response site rest
      end
  | _ :: rest => stops_at_null_response site rest
  end.

End Critical.


(** * The account login route, [app/routes/account_.login.jsx] *)

Module AccountLogin.

Section Loader.

(** The world the customer-account SDK acts on (session, redirect in
    flight), and what a call settles to: both belong to the SDK. *)
Variables World Settled : Type.

Record I18n : Type := { country : string }.

Record Storefront : Type := { i18n : I18n }.

(** [login] takes an options object and acts on the world. *)
Record CustomerAccount : Type := {
  login : gmap string string -> World -> Settled * World
}.

Record AppLoadContext : Type := {
  customerAccount : CustomerAccount;
  storefront : Storefront
}.

Record LoaderArgs : Type := { context : AppLoadContext }.

Definition loader (args : LoaderArgs) : World -> Settled * World :=
  let context := context args in
  login (customerAccount context)
        {[ "countryCode" := country (i18n (storefront context)) ]}.

End Loader.

Arguments login {World Settled} _ _ _.
Arguments customerAccount {World Settled} _.
Arguments storefront {World Settled} _.
Arguments context {World Settled} _.
Arguments loader {World Settled} _ _.

(** An SDK double that only counts how often [login] is called and
    remembers the options of the last call. *)
Definition counting_account : CustomerAccount (nat * gmap string string) unit :=
  {| login := fun opts w => (tt, (S (w.1), opts)) |}.

Definition counting_args (c : string)
  : LoaderArgs (nat * gmap string string) unit :=
  {| context := {| customerAccount := counting_account;
                   storefront := {| i18n := {| country := c |} |} |} |}.

End AccountLogin.

(** * The deployment pipeline

    The workflow files themselves ([ci.yml], [deploy-pr.yml],
    [merge-queue.yml], [rollback.yml]) are not part of the sources at hand;
    the workflow README documents the step list of the first three.  The step
    lists below are those patterns; what the README does not show (the
    runner, the triggers, the rollback job) is modelled from the
    specification and marked so. *)

Module Workflows.

(** ** Expressions and steps *)

Inductive Expr : Type :=
| Lit (s : string)
| Input (name : string)                (* inputs.<name> *)
| Secret (name : string)               (* secrets.<name> *)
| StepOutput (id out : string).        (* steps.<id>.outputs.<out> *)

(** The contexts an expression reads.  A name that is not set reads as the
    empty string. *)
Record Context : Type := {
  inputs : gmap string string;
  secrets : gmap string string;
  step_outputs : gmap (string * string) string
}.

Definition eval (c : Context) (e : Expr) : string :=
  match e with
  | Lit s => s
  | Input n => default "" (inputs c !! n)
  | Secret n => default "" (secrets c !! n)
  | StepOutput i o => default "" (step_outputs c !! (i, o))
  end.

(** [if: <e> != ''] *)
Inductive Cond : Type :=
| NotEmpty (e : Expr).

Definition cond_holds (c : Context) (k : option Cond) : bool :=
  match k with
  | None => true
  | Some (NotEmpty e) => negb (String.eqb (eval c e) "")
  end.

Record Step : Type := {
  step_name : string;
  step_if : option Cond;
  step_uses : string;
  step_with : list (string * Expr)
}.

Definition eval_with (c : Context) (w : list (string * Expr))
  : list (string * string) :=
  map (fun kv => (fst kv, eval c (snd kv))) w.

(** ** The actions, as the README names them *)

Definition checkout : string := "actions/checkout@v4".
Definition setup_node : string := "./.github/actions/setup-node".
Definition check : string := "./.github/actions/check".
Definition e2e_tests : string := "./.github/actions/e2e-tests".
Definition setup_shopify_cli : string := "./.github/actions/setup-shopify-cli".
Definition deploy : string := "./.github/actions/deploy".

(** ** The documented step lists *)

(** [ci.yml], pattern of [.github/README.md]. *)
Definition ci_steps : list Step :=
  [ {| step_name := "Checkout code"; step_if := None;
       step_uses := checkout; step_with := [] |};
    {| step_name := "Setup Node.js"; step_if := None;
       step_uses := setup_node;
       step_with := [("node-version", Lit "18")] |};
    {| step_name := "Check (lint, typecheck, and build)"; step_if := None;
       step_uses := check; step_with := [] |};
    {| step_name := "Run E2E tests";
       step_if := Some (NotEmpty (Input "playwright-base-url"));
       step_uses := e2e_tests;
       step_with := [("base-url", Input "playwright-base-url")] |} ].

(** [deploy-pr.yml], job [deploy], pattern of [.github/README.md]. *)
Definition deploy_pr_steps : list Step :=
  [ {| step_name := "Setup Node.js"; step_if := None;
       step_uses := setup_node; step_with := [] |};
    {| step_name := "Authenticate with Shopify CLI"; step_if := None;
       step_uses := setup_shopify_cli; step_with := [] |};
    {| step_name := "Deploy to Oxygen"; step_if := None;
       step_uses := deploy;
       step_with :=
         [("token", Secret "SHOPIFY_HYDROGEN_DEPLOYMENT_TOKEN")] |} ].

(** [merge-queue.yml], job [deploy-production], pattern of
    [.github/README.md].  The step with id [production-url] is not shown
    there; its output is read from the context. *)
Definition deploy_production_steps : list Step :=
  [ {| step_name := "Setup Node.js"; step_if := None;
       step_uses := setup_node; step_with := [] |};
    {| step_name := "Authenticate with Shopify CLI"; step_if := None;
       step_uses := setup_shopify_cli; step_with := [] |};
    {| step_name := "Deploy to production"; step_if := None;
       step_uses := deploy; step_with := [] |};
    {| step_name := "Run E2E tests against production"; step_if := None;
       step_uses := e2e_tests;
       step_with := [("base-url", StepOutput "production-url" "url")] |} ].

(** ** Running a job *)

Inductive Conclusion : Type :=
| success
| failure
| skipped.

Inductive Event : Type :=
| started (name uses : string) (args : list (string * string))
| completed (name : string) (c : Conclusion)
| notified (outcome : Conclusion).

(** What the outside world decides: whether an action, run as a given step
    with given arguments, succeeds. *)
Definition Outside : Type := string -> string -> list (string * string) -> bool.

(** Modelled from the spec: the job runner of the CI platform is external.
    Steps of a job run one after the other (section 5: stages execute
    sequentially); a step runs when every step before it succeeded and its
    own condition holds, otherwise it is skipped (section 4.1: fails fast on
    first failing step; no base URL means skipped, not failed). *)
Fixpoint run_steps (w : Outside) (c : Context) (ok : bool) (steps : list Step)
  : list Event :=
  match steps with
  | [] => []
  | s :: rest =>
      if ok && cond_holds c (step_if s)
      then
        let args := eval_with c (step_with s) in
        let r := w (step_name s) (step_uses s) args in
        started (step_name s) (step_uses s) args
          :: completed (step_name s) (if r then success else failure)
          :: run_steps w c r rest
      else completed (step_name s) skipped :: run_steps w c ok rest
  end.

Definition is_failure (e : Event) : bool :=
  match e with
  | completed _ failure => true
  | _ => false
  end.

(** A job succeeded when none of its steps failed; skipped steps do not
    count against it. *)
Definition concluded (evs : list Event) : Conclusion :=
  if existsb is_failure evs then failure else success.

Definition succeeded (evs : list Event) : bool :=
  negb (existsb is_failure evs).

(** ** The stages *)

(** Integration Check: the [ci] job of [ci.yml], called with the caller's
    inputs. *)
Definition integration_check (w : Outside) (c : Context) : list Event :=
  run_steps w c true ci_steps.

(** A caller that has no URL yet passes no [playwright-base-url]. *)
Definition without_base_url (c : Context) : Context :=
  {| inputs := delete "playwright-base-url" (inputs c);
     secrets := secrets c;
     step_outputs := step_outputs c |}.

(** Modelled from the spec: the data model of section 3.  A revision carries
    its identifier and the identifier of its predecessor; the root revision
    has none. *)
Record Revision : Type := {
  ident : string;
  predecessor : option string
}.



(** Modelled from the spec: a proposed change (section 4.2) originates from
    the repository itself or from an external fork. *)
Record ProposedChange : Type := {
  head_repository : string;
  base_repository : string;
  change_head : Revision
}.

Definition same_repository (pc : ProposedChange) : bool :=
  String.eqb (head_repository pc) (base_repository pc).

(** Preview Publisher: the single [deploy] job of [deploy-pr.yml], as
    [.github/README.md] documents it. *)
Definition preview_publisher (w : Outside) (c : Context) : list Event :=
  run_steps w c true deploy_pr_steps.

(** Modelled from the spec: Production Publisher (section 4.3,
    [merge-queue.yml]): Integration Check with no URL yet, then, on success,
    the production job. *)
Definition production_publisher (w : Outside) (c : Context) : list Event :=
  let ci := integration_check w (without_base_url c) in
  if succeeded ci
  then ci ++ run_steps w c true deploy_production_steps
  else ci.

(** Modelled from the spec: Rollback Agent (section 4.4, [rollback.yml]).  It
    checks out the revision it was given and re-runs the deployment step,
    not the check and test stages, then notifies of the outcome.  With no
    revision to go back to, it fails before checking anything out. *)
Definition rollback_steps (ref : string) : list Step :=
  [ {| step_name := "Checkout previous revision"; step_if := None;
       step_uses := checkout; step_with := [("ref", Lit ref)] |};
    {| step_name := "Setup Node.js"; step_if := None;
       step_uses := setup_node; step_with := [] |};
    {| step_name := "Authenticate with Shopify CLI"; step_if := None;
       step_uses := setup_shopify_cli; step_with := [] |};
    {| step_name := "Redeploy"; step_if := None;
       step_uses := deploy; step_with := [] |} ].

Definition rollback_agent (w : Outside) (c : Context) (target : option string)
  : list Event :=
  match target with
  | Some ref =>
      let evs := run_steps w c true (rollback_steps ref) in
      evs ++ [notified (concluded evs)]
  | None =>
      [completed "Determine previous revision" failure; notified failure]
  end.

(** ** Triggers *)

(** Modelled from the spec: the trigger events of section 6. *)
Inductive Trigger : Type :=
| proposed_change (pc : ProposedChange)
| merge_queue_admitted (rev : Revision)
| upstream_completed (k : Conclusion) (rev : Revision)
| manual_invocation (supplied : string).

Inductive Stage : Type :=
| PreviewPublisher
| ProductionPublisher
| RollbackAgent.

Record Run : Type := {
  stage : Stage;
  events : list Event
}.

(** Modelled from the spec: a completed Production Publisher run triggers
    the Rollback Agent when it failed, on the predecessor of the revision it
    was publishing (sections 4.3 and 4.4). *)
Definition on_upstream_completed (w : Outside) (c : Context)
           (k : Conclusion) (rev : Revision) : list Run :=
  match k with
  | failure =>
      [ {| stage := RollbackAgent;
           events := rollback_agent w c (predecessor rev) |} ]
  | _ => []
  end.

(** Modelled from the spec: what each trigger starts.  A proposed change
    starts the Preview Publisher only when it comes from the repository
    itself (section 4.2: a change from an external fork starts nothing); a
    revision admitted to the merge queue starts the Production Publisher,
    whose completion is itself a trigger. *)
Definition on_trigger (w : Outside) (c : Context) (t : Trigger) : list Run :=
  match t with
  | proposed_change pc =>
      if same_repository pc
      then [ {| stage := PreviewPublisher;
                events := preview_publisher w c |} ]
      else []
  | merge_queue_admitted rev =>
      let evs := production_publisher w c in
      {| stage := ProductionPublisher; events := evs |}
        :: on_upstream_completed w c (concluded evs) rev
  | upstream_completed k rev => on_upstream_completed w c k rev
  | manual_invocation supplied =>
      [ {| stage := RollbackAgent;
           events := rollback_agent w c (Some supplied) |} ]
  end.

(** ** Reading a run *)

Definition is_rollback (r : Run) : bool :=
  match stage r with
  | RollbackAgent => true
  | _ => false
  end.

Definition is_preview (r : Run) : bool :=
  match stage r with
  | PreviewPublisher => true
  | _ => false
  end.



(** Whether a run started a deployment. *)
Definition deploys (evs : list Event) : bool :=
  existsb (fun e => match e with
                    | started _ uses _ => String.eqb uses deploy
                    | _ => false
                    end) evs.

(** Every step that starts completes before anything else happens. *)
Fixpoint sequential (evs : list Event) : bool :=
  match evs with
  | [] => true
  | started n _ _ :: rest =>
      match rest with
      | completed n' _ :: _ => String.eqb n n' && sequential rest
      | _ => false
      end
  | _ :: rest => sequential rest
  end.

(** No acceptance-test step starts unless the production deployment has
    completed with success before it; [deployed] says whether it has. *)
Fixpoint tests_follow_deploy (deployed : bool) (evs : list Event) : bool :=
  match evs with
  | [] => true
  | started _ uses _ :: rest =>
      (if String.eqb uses e2e_tests then deployed else true)
      && tests_follow_deploy deployed rest
  | completed n success :: rest =>
      tests_follow_deploy
        (deployed || String.eqb n "Deploy to production") rest
  | _ :: rest => tests_follow_deploy deployed rest
  end.




(** ** Example inputs *)

Definition no_inputs : Context :=
  {| inputs := ∅; secrets := ∅; step_outputs := ∅ |}.

Definition with_base_url (url : string) : Context :=
  {| inputs := {[ "playwright-base-url" := url ]};
     secrets := ∅;
     step_outputs := {[ ("production-url", "url") := url ]} |}.

Definition all_green : Outside := fun _ _ _ => true.

Definition check_fails : Outside :=
  fun _ uses _ => negb (String.eqb uses check).

Definition deploy_fails : Outside :=
  fun _ uses _ => negb (String.eqb uses deploy).

Definition tests_fail : Outside :=
  fun _ uses _ => negb (String.eqb uses e2e_tests).

Definition r3 : Revision := {| ident := "c3d2"; predecessor := Some "b2e1" |}.

Definition fork_change : ProposedChange :=
  {| head_repository := "contributor/momma-bear";
     base_repository := "kevin-mind/momma-bear";
     change_head := r3 |}.

Definition own_change : ProposedChange :=
  {| head_repository := "kevin-mind/momma-bear";
     base_repository := "kevin-mind/momma-bear";
     change_head := r3 |}.

End Workflows.

(** * Further readings of a scenario run *)

Module CriticalRuns.
Import Critical.

(** The URLs a run navigated to, in order. *)
Fixpoint navigations (tr : list Action) : list string :=
  match tr with
  | [] => []
  | goto u :: rest => u :: navigations rest
  | _ :: rest => navigations rest
  end.

Definition is_expect (a : Action) : bool :=
  match a with
  | expect _ => true
  | _ => false
  end.

(** The value of [productUrl] in the product-detail scenario: the [href] of
    the first product item of the homepage; no value when the lookup rejects
    or nothing is loaded. *)
Definition product_href (site : Site) : option string :=
  match attribute (first (locator ".product-item")) "href"
          (landed site "/") with
  | Some v => v
  | None => None
  end.

(** A test body logs as it goes: the log only grows, and when the body
    rejects, the action it rejects with is the last one logged. *)
Definition logs_its_failure {A : Type} (m : Test A) : Prop :=
  forall p : Page,
    match m p with
    | (resolved _, p') => exists l, log p' = log p ++ l
    | (rejected a, p') => exists l, log p' = log p ++ l ++ [a]
    end.

(** *** More example sites *)

(** The root answers 404. *)
Definition not_found_site : Site :=
  fun _ => NavResolved (Some {| status := 404 |}) (healthy_document None).

(** The first product item carries an empty [href]. *)
Definition empty_href_site : Site :=
  fun _ => NavResolved (Some {| status := 200 |})
             (healthy_document (Some "")).

(** Every attribute lookup times out. *)
Definition no_attribute_site : Site :=
  fun _ => NavResolved (Some {| status := 200 |})
    {| doc_title_polls := fun _ => ["Hydrogen | Home"];
       doc_url_polls := fun _ => ["/collections"];
       doc_networkidle := true;
       doc_visible_within := fun _ _ => true;
       doc_count := fun _ => 4%nat;
       doc_getAttribute := fun _ _ => AttrTimeout |}.

End CriticalRuns.

(** * Proof tools *)

(** Case analysis on the innermost value a stuck computation is waiting
    for: an answer of the site, or of the outside world. *)
Ltac split_answer :=
  match goal with
  | |- context [match ?x with _ => _ end] =>
      lazymatch x with
      | context [match _ with _ => _ end] => fail
      | _ => destruct x eqn:?
      end
  end.

(** * Properties of the acceptance scenarios *)

Module CriticalFacts.
Import Critical.

(** Symbolic execution: unfold the page operations, then split on every
    answer of the site the scenario is waiting for. *)
Ltac unfold_test :=
  cbv [run outcome trace fst snd
       app_loads_successfully homepage_renders_products
       product_page_loads_and_renders_product_details
       collections_page_loads_and_displays_products
       page_goto page_waitForLoadState locator_count locator_getAttribute
       expect_ throw_ catch bind ret record reject holds
       document log app opt_status status].

Ltac exec := unfold_test; repeat (split_answer; unfold_test).

Ltac unfold_site :=
  cbv [response_status landed title_has url_has networkidle visible items
       attribute collection_href opt_status status] in *.

Ltac use_answers :=
  repeat match goal with
         | H : ?site ?u = _ |- context [?site ?u] => rewrite H
         | H : ?site ?u = _, H' : context [?site ?u] |- _ => rewrite H in H'
         end.

Ltac finish :=
  intros;
  repeat match goal with
         | H : _ /\ _ |- _ => destruct H
         | H : Z.eqb _ _ = true |- _ => apply Z.eqb_eq in H
         | H : Z.eqb _ _ = false |- _ => apply Z.eqb_neq in H
         | H : Nat.ltb _ _ = true |- _ => apply Nat.ltb_lt in H
         | H : Nat.ltb _ _ = false |- _ => apply Nat.ltb_ge in H
         | H : Some _ = Some _ |- _ => injection H as H
         end;
  subst; repeat split; try discriminate; try congruence; try tauto;
  try lia.

Ltac split_membership :=
  repeat match goal with
         | H : In _ (_ :: _) |- _ => destruct H as [H | H]
         | H : In _ [] |- _ => destruct H
         | H : goto _ = goto _ |- _ => injection H as H
         end.

(** ** Root page *)

Lemma app_loads_successfully_healthy :
  run app_loads_successfully healthy_site
  = (passed,
     [ goto "/"; expect (toBe (Some 200) 200); waitForLoadState "networkidle";
       expect (toHaveTitle "Hydrogen" 10000) ]).
Proof. reflexivity. Qed.

(** C8, as stated, fails: on [busy_site] the root answers 200 and the title
    contains the marker within 10 s, yet the scenario does not pass, because
    the wait for the [networkidle] load state rejects first. *)
Lemma app_loads_busy_site_counterexample :
  ~ (outcome app_loads_successfully busy_site = passed
     <-> response_status busy_site "/" = Some 200
         /\ title_has "Hydrogen" 10000 (landed busy_site "/") = true).
Proof.
  intros [_ H].
  assert (Hp : outcome app_loads_successfully busy_site = passed)
    by (apply H; split; reflexivity).
  vm_compute in Hp. discriminate Hp.
Qed.

(** C8 (amended): the root-page scenario passes if and only if the response
    to the root path has status 200, the page reaches the [networkidle] load
    state, and the page title contains [Hydrogen] within the 10-second
    bound. *)
Theorem app_loads_successfully_passes_iff (site : Site) :
  outcome app_loads_successfully site = passed
  <-> response_status site "/" = Some 200
      /\ networkidle (landed site "/") = true
      /\ title_has "Hydrogen" 10000 (landed site "/") = true.
Proof.
  unfold_site. exec; split; finish.
Qed.

Lemma app_loads_successfully_passes_iff_witness :
  outcome app_loads_successfully healthy_site = passed.
Proof.
  apply (proj2 (app_loads_successfully_passes_iff healthy_site)).
  repeat split; reflexivity.
Defined.

(** ** Homepage listing *)

Lemma homepage_renders_products_healthy :
  outcome homepage_renders_products healthy_site = passed.
Proof. reflexivity. Qed.

Lemma homepage_renders_products_passes_iff (site : Site) :
  outcome homepage_renders_products site = passed
  <-> response_status site "/" = Some 200
      /\ networkidle (landed site "/") = true
      /\ visible (getByRole "heading" "recommended products") 15000
           (landed site "/") = true
      /\ visible (locator ".recommended-products-grid") 15000
           (landed site "/") = true
      /\ (0 < items (locator ".product-item") (landed site "/"))%nat
      /\ visible (first (locator ".product-item")) 10000
           (landed site "/") = true.
Proof.
  unfold_site. exec; split; finish.
Qed.

(** Once the items have been counted and there are none, the run stops at
    the assertion on the count. *)
Lemma homepage_stops_at_count (site : Site) :
  items (locator ".product-item") (landed site "/") = 0%nat ->
  In (count (locator ".product-item")) (trace homepage_renders_products site) ->
  outcome homepage_renders_products site
  = failed (expect (toBeGreaterThan 0 0)).
Proof.
  unfold_site. exec; intros Hz Hin; split_membership; try discriminate;
    try (now rewrite Hz);
    match goal with
    | H : Nat.ltb 0 _ = true |- _ => rewrite Hz in H; discriminate H
    end.
Qed.

(** C5: in the homepage scenario, when the homepage renders zero product
    items the listing-count assertion [expect(count).toBeGreaterThan(0)] does
    not hold and the scenario reports failure (at that very assertion as soon
    as the count has been taken); the scenario passes only when the number of
    rendered product items is strictly greater than zero. *)
Theorem homepage_renders_products_needs_items (site : Site) :
  (items (locator ".product-item") (landed site "/") = 0%nat ->
     (forall d,
         holds d (toBeGreaterThan
                    (items (locator ".product-item") (landed site "/")) 0)
         = false)
     /\ (exists a, outcome homepage_renders_products site = failed a)
     /\ (In (count (locator ".product-item"))
            (trace homepage_renders_products site) ->
         outcome homepage_renders_products site
         = failed (expect (toBeGreaterThan 0 0))))
  /\ (outcome homepage_renders_products site = passed ->
      (0 < items (locator ".product-item") (landed site "/"))%nat).
Proof.
  split.
  - intros Hz. split; [|split].
    + intros d. rewrite Hz. reflexivity.
    + destruct (outcome homepage_renders_products site) as [|a] eqn:Ho;
        [|now exists a].
      apply homepage_renders_products_passes_iff in Ho. lia.
    + now apply homepage_stops_at_count.
  - intros Ho. apply homepage_renders_products_passes_iff in Ho. tauto.
Qed.

Lemma homepage_renders_products_needs_items_witness :
  outcome homepage_renders_products empty_listing_site
  = failed (expect (toBeGreaterThan 0 0))
  /\ (0 < items (locator ".product-item") (landed healthy_site "/"))%nat.
Proof.
  split.
  - apply (proj1 (homepage_renders_products_needs_items empty_listing_site)).
    + reflexivity.
    + vm_compute. tauto.
  - apply (proj2 (homepage_renders_products_needs_items healthy_site)).
    reflexivity.
Defined.

(** ** Product detail *)

Lemma product_page_healthy :
  run product_page_loads_and_renders_product_details healthy_site
  = (passed,
     [ goto "/"; expect (toBe (Some 200) 200); waitForLoadState "networkidle";
       expect (toBeVisible (locator ".recommended-products-grid") 15000);
       expect (toBeVisible (first (locator ".product-item")) 10000);
       getAttribute (first (locator ".product-item")) "href";
       expect (toBeTruthy (Some "/products/snowboard"));
       goto "/products/snowboard"; expect (toBe (Some 200) 200);
       waitForLoadState "networkidle";
       expect (toBeVisible (locator "h1") 10000);
       expect (toBeVisible (locator ".product") 10000) ]).
Proof. reflexivity. Qed.

(** X10: the guard [if (!productUrl) throw new Error(...)] comes after
    [expect(productUrl).toBeTruthy()], which has already thrown for every
    falsy value: the explicit [throw] is never executed. *)
Lemma explicit_throw_unreachable (site : Site) (msg : string) :
  ~ In (throw msg)
       (trace product_page_loads_and_renders_product_details site)
  /\ outcome product_page_loads_and_renders_product_details site
     <> failed (throw msg).
Proof.
  exec; split; try discriminate; intros Hin; split_membership;
    try discriminate.
  all: match goal with
       | H : truthy ?v = true, H' : negb (truthy ?v) = true |- _ =>
           rewrite H in H'; discriminate H'
       end.
Qed.

(** C6: in the product-detail scenario, when the first product item of the
    listing page yields no [href] ([getAttribute] resolves to [null]), the
    scenario raises the missing-URL error, by the failing assertion
    [expect(productUrl).toBeTruthy()], and navigates to no product detail
    page: the only navigation of the run is the one to the homepage. *)
Theorem product_scenario_stops_on_missing_href (site : Site) :
  attribute (first (locator ".product-item")) "href" (landed site "/")
  = Some None ->
  (exists a, outcome product_page_loads_and_renders_product_details site
             = failed a)
  /\ (forall u,
        In (goto u)
           (trace product_page_loads_and_renders_product_details site) ->
        u = "/")
  /\ (In (getAttribute (first (locator ".product-item")) "href")
         (trace product_page_loads_and_renders_product_details site) ->
      outcome product_page_loads_and_renders_product_details site
      = failed (expect (toBeTruthy None))).
Proof.
  unfold_site. exec; intros; use_answers;
    repeat match goal with
           | H : Some _ = Some _ |- _ => injection H as H
           | H : AttrValue _ = AttrValue _ |- _ => injection H as H
           end; subst; cbn [truthy] in *; try discriminate;
    (split; [eauto | split]); intros; split_membership; subst;
    try discriminate; try reflexivity.
Qed.

Lemma product_scenario_stops_on_missing_href_witness :
  outcome product_page_loads_and_renders_product_details no_href_site
  = failed (expect (toBeTruthy None))
  /\ (forall u,
        In (goto u)
           (trace product_page_loads_and_renders_product_details no_href_site)
        -> u = "/").
Proof.
  destruct (product_scenario_stops_on_missing_href no_href_site eq_refl)
    as (_ & Hnav & Herr).
  split; [apply Herr; vm_compute; tauto | exact Hnav].
Defined.

(** ** Collections *)

Lemma collections_page_healthy :
  run collections_page_loads_and_displays_products healthy_site
  = (passed,
     [ goto "/"; expect (toBe (Some 200) 200); waitForLoadState "networkidle";
       getAttribute (first (locator featured_collection_selector)) "href";
       goto "/products/snowboard"; expect (toBe (Some 200) 200);
       waitForLoadState "networkidle";
       expect (toBeVisible (locator "h1") 15000);
       expect (toBeVisible (locator ".products-grid") 15000) ]).
Proof. reflexivity. Qed.

Lemma collections_page_fallback :
  run collections_page_loads_and_displays_products no_collection_link_site
  = (passed,
     [ goto "/"; expect (toBe (Some 200) 200); waitForLoadState "networkidle";
       getAttribute (first (locator featured_collection_selector)) "href";
       goto "/collections"; expect (toBe (Some 200) 200);
       expect (toHaveURL "collections" 10000) ]).
Proof. reflexivity. Qed.

(** C7, as stated, fails in its fallback half: on [no_collection_link_site]
    no collection link is discoverable, the scenario falls back to
    [/collections] and passes, although the page it lands on displays no
    product grid. *)
Lemma collections_fallback_counterexample :
  ~ (outcome collections_page_loads_and_displays_products
       no_collection_link_site = passed ->
     truthy (collection_href no_collection_link_site) = false ->
     visible (locator ".products-grid") 15000
       (landed no_collection_link_site "/collections") = true).
Proof.
  intros H. specialize (H eq_refl eq_refl). vm_compute in H. discriminate H.
Qed.

(** C7 (amended): the collections scenario passes exactly when the homepage
    answers 200 and reaches network idle and, when a collection link is
    discoverable there, the navigation to it answers 200, reaches network
    idle and shows a heading and a product grid; when none is discoverable,
    the navigation to [/collections] answers 200 and the resulting URL
    matches the collections pattern.  In that fallback the scenario makes no
    visibility assertion at all, so it does not check for a product grid. *)
Theorem collections_scenario_passes_iff (site : Site) :
  (outcome collections_page_loads_and_displays_products site = passed
   <-> response_status site "/" = Some 200
       /\ networkidle (landed site "/") = true
       /\ if truthy (collection_href site)
          then response_status site (default "" (collection_href site))
               = Some 200
               /\ networkidle
                    (landed site (default "" (collection_href site))) = true
               /\ visible (locator "h1") 15000
                    (landed site (default "" (collection_href site))) = true
               /\ visible (locator ".products-grid") 15000
                    (landed site (default "" (collection_href site))) = true
          else response_status site "/collections" = Some 200
               /\ url_has "collections" 10000 (landed site "/collections")
                  = true)
  /\ (response_status site "/" = Some 200 ->
      networkidle (landed site "/") = true ->
      truthy (collection_href site) = false ->
      In (goto "/collections")
         (trace collections_page_loads_and_displays_products site)
      /\ forall l t,
          ~ In (expect (toBeVisible l t))
               (trace collections_page_loads_and_displays_products site)).
Proof.
  unfold_site. exec; (split; [split|]); finish;
    cbn [In] in *; try tauto;
    try (intros l t Hin; intuition discriminate).
Qed.

Lemma collections_scenario_passes_iff_witness :
  In (goto "/collections")
     (trace collections_page_loads_and_displays_products
        no_collection_link_site)
  /\ forall l t,
      ~ In (expect (toBeVisible l t))
           (trace collections_page_loads_and_displays_products
              no_collection_link_site).
Proof.
  apply (proj2 (collections_scenario_passes_iff no_collection_link_site));
    reflexivity.
Defined.

(** ** Navigations and their status assertions *)

Lemma option_Z_eqb_eq (a b : option Z) : option_Z_eqb a b = true -> a = b.
Proof.
  destruct a, b; cbn; intros H; try discriminate; try reflexivity.
  apply Z.eqb_eq in H. now subst.
Qed.

Lemma navigations_checked_spec (site : Site) (tr : list Action) :
  navigations_checked site tr = true ->
  forall pre u post, tr = pre ++ goto u :: post ->
    match site u with
    | NavRejected => post = []
    | NavResolved r _ =>
        exists post', post = expect (toBe (opt_status r) 200) :: post'
    end.
Proof.
  induction tr as [|a tr IH]; intros Hc pre u post Heq.
  - destruct pre; discriminate Heq.
  - destruct pre as [|b pre]; cbn in Heq; injection Heq as -> ->.
    + cbn in Hc. destruct (site u) as [|r d].
      * destruct post; [reflexivity | discriminate Hc].
      * destruct post as [|[| | | |[got want| | | | |]|] post];
          try discriminate Hc.
        apply andb_prop in Hc as [Hc _]. apply andb_prop in Hc as [Hg Hw].
        apply option_Z_eqb_eq in Hg. apply Z.eqb_eq in Hw. subst.
        now exists post.
    + apply (IH) with (pre := pre); [|reflexivity].
      destruct b; cbn in Hc; try exact Hc.
      destruct (site url) as [|r d].
      * destruct pre; cbn in Hc; discriminate Hc.
      * destruct (pre ++ goto u :: post) as [|[| | | |[got want| | | | |]|] l];
          try discriminate Hc.
        apply andb_prop in Hc as [_ Hc]. exact Hc.
Qed.

Lemma stops_at_null_response_spec (site : Site) (tr : list Action) :
  stops_at_null_response site tr = true ->
  forall pre u post d, tr = pre ++ goto u :: post ->
    site u = NavResolved None d ->
    post = [expect (toBe None 200)].
Proof.
  induction tr as [|a tr IH]; intros Hc pre u post d Heq Hu.
  - destruct pre; discriminate Heq.
  - destruct pre as [|b pre]; cbn in Heq; injection Heq as -> ->.
    + cbn in Hc. rewrite Hu in Hc.
      destruct post as [|[| | | |[[|] want| | | | |]|] [|? ?]];
        try discriminate Hc.
      apply Z.eqb_eq in Hc. now subst.
    + apply IH with (pre := pre) (u := u) (d := d); [|reflexivity|exact Hu].
      destruct b; cbn in Hc; try exact Hc.
      destruct (site url) as [|[r|] d']; try exact Hc.
      exfalso. destruct pre as [|x pre]; cbn in Hc; [discriminate Hc|].
      destruct x as [| | | |[[|] want| | | | |]|]; try discriminate Hc.
      destruct pre; discriminate Hc.
Qed.

Ltac check_trace :=
  repeat (cbn [navigations_checked stops_at_null_response option_Z_eqb
               opt_status status andb];
          use_answers; rewrite ?Z.eqb_refl);
  try reflexivity.

Ltac check_outcome :=
  intros u Hin; split_membership; subst; use_answers;
  try discriminate; try reflexivity; try exact I.

Ltac check_scenario :=
  exec; (split; [check_trace | split; [check_trace | check_outcome]]).

(** What every scenario of the suite does around its navigations, in the
    executable form the proofs compute with. *)
Lemma scenarios_check_navigations (site : Site) (name : string)
      (t : Site -> Test unit) :
  In (name, t) critical_e2e_tests ->
  navigations_checked site (trace t site) = true
  /\ stops_at_null_response site (trace t site) = true
  /\ forall u, In (goto u) (trace t site) ->
       match site u with
       | NavRejected => outcome t site = failed (goto u)
       | NavResolved None _ => outcome t site = failed (expect (toBe None 200))
       | NavResolved (Some _) _ => True
       end.
Proof.
  intros Hin. cbn [critical_e2e_tests In] in Hin.
  destruct Hin as [H|[H|[H|[H|[]]]]]; injection H as _ <-.
  - check_scenario.
  - check_scenario.
  - check_scenario.
  - check_scenario.
Qed.

(** C9: in every acceptance scenario, each page navigation is immediately
    followed by the assertion that the status of its response is 200 (a
    navigation that rejects ends the scenario on the spot); and when a
    navigation yields no response object, that assertion fails and the
    scenario reports failure there, with no further action on the page. *)
Theorem every_navigation_is_status_checked
        (site : Site) (name : string) (t : Site -> Test unit)
        (pre post : list Action) (u : string) :
  In (name, t) critical_e2e_tests ->
  trace t site = pre ++ goto u :: post ->
  match site u with
  | NavRejected => post = [] /\ outcome t site = failed (goto u)
  | NavResolved r _ =>
      exists post',
        post = expect (toBe (opt_status r) 200) :: post'
        /\ (r = None ->
            post' = [] /\ outcome t site = failed (expect (toBe None 200)))
  end.
Proof.
  intros Hin Htr.
  destruct (scenarios_check_navigations site name t Hin)
    as (Hnav & Hnull & Hout).
  pose proof (navigations_checked_spec site _ Hnav pre u post Htr) as Hn.
  assert (Hu : In (goto u) (trace t site))
    by (rewrite Htr; apply in_elt).
  specialize (Hout u Hu).
  destruct (site u) as [|r d] eqn:Esite.
  - split; assumption.
  - destruct Hn as [post' ->]. exists post'. split; [reflexivity|].
    intros ->.
    pose proof (stops_at_null_response_spec site _ Hnull pre u _ d Htr Esite)
      as Hs.
    injection Hs as ->. split; [reflexivity | exact Hout].
Qed.

Lemma every_navigation_is_status_checked_witness :
  exists post',
    [expect (toBe None 200)] = expect (toBe None 200) :: post'
    /\ (@None Response = None ->
        post' = []
        /\ outcome app_loads_successfully null_response_site
           = failed (expect (toBe None 200))).
Proof.
  apply (every_navigation_is_status_checked null_response_site
           "app loads successfully" app_loads_successfully
           [] [expect (toBe None 200)] "/").
  - cbn. tauto.
  - reflexivity.
Defined.

End CriticalFacts.

(** * Properties of the account login loader *)

Module AccountLoginFacts.
Import AccountLogin.

Lemma loader_counts_one_call (c : string) (n : nat) (o : gmap string string) :
  loader (counting_args c) (n, o) = (tt, (S n, {[ "countryCode" := c ]})).
Proof. reflexivity. Qed.

(** C10: for every request, the loader settles to exactly what
    [context.customerAccount.login] settles to when called with an options
    object whose only property is [countryCode], equal to
    [context.storefront.i18n.country]; the world after the loader is the
    world after that one call. *)
Theorem loader_delegates_to_login
        {World Settled : Type} (args : LoaderArgs World Settled) (w : World) :
  exists options : gmap string string,
    loader args w = login (customerAccount (context args)) options w
    /\ options !! "countryCode"
       = Some (country (i18n (storefront (context args))))
    /\ forall k : string, k <> "countryCode" -> options !! k = None.
Proof.
  exists {[ "countryCode" := country (i18n (storefront (context args))) ]}.
  split; [reflexivity|]. split.
  - apply lookup_singleton_eq.
  - intros k Hk. apply lookup_singleton_ne. congruence.
Qed.

End AccountLoginFacts.

(** * Properties of the deployment pipeline *)

Module WorkflowFacts.
Import Workflows.

Lemma eval_without_base_url (c : Context) :
  eval (without_base_url c) (Input "playwright-base-url") = "".
Proof.
  cbn [eval without_base_url inputs]. now rewrite lookup_delete_eq.
Qed.

(** Symbolic execution of a job: expose the steps, name the base URL, then
    split on every answer of the outside world. *)
Ltac expose :=
  cbv [integration_check production_publisher preview_publisher
       rollback_agent run_steps ci_steps deploy_production_steps
       deploy_pr_steps rollback_steps
       step_name step_if step_uses step_with cond_holds eval_with
       map fst snd andb negb eval app].

Ltac run_job := expose; repeat (split_answer; cbv beta iota).

(** Case analysis on which event of a concrete list a given one is; an
    equation between two [started] events is split, and refuted when the
    actions differ. *)
Ltac event_cases H :=
  cbn [In] in H;
  repeat match type of H with
         | _ \/ _ => destruct H as [H | H]
         end;
  try contradiction; try discriminate H;
  try (injection H; clear H; intros;
       try match goal with
           | Hu : @eq string _ _ |- _ => vm_compute in Hu; discriminate Hu
           end).

(** ** Integration Check *)

Lemma integration_check_all_green :
  integration_check all_green (with_base_url "https://shop.example")
  = [ started "Checkout code" checkout [];
      completed "Checkout code" success;
      started "Setup Node.js" setup_node [("node-version", "18")];
      completed "Setup Node.js" success;
      started "Check (lint, typecheck, and build)" check [];
      completed "Check (lint, typecheck, and build)" success;
      started "Run E2E tests" e2e_tests [("base-url", "https://shop.example")];
      completed "Run E2E tests" success ].
Proof. vm_compute. reflexivity. Qed.

Lemma integration_check_check_fails :
  integration_check check_fails (with_base_url "https://shop.example")
  = [ started "Checkout code" checkout [];
      completed "Checkout code" success;
      started "Setup Node.js" setup_node [("node-version", "18")];
      completed "Setup Node.js" success;
      started "Check (lint, typecheck, and build)" check [];
      completed "Check (lint, typecheck, and build)" failure;
      completed "Run E2E tests" skipped ].
Proof. vm_compute. reflexivity. Qed.

(** C3, as stated, fails in its second half: a base URL is supplied, but the
    check step fails, and the acceptance-test step is skipped rather than
    executed. *)
Lemma e2e_skipped_when_check_fails :
  ~ (eval (with_base_url "https://shop.example") (Input "playwright-base-url")
     <> "" ->
     exists n args,
       In (started n e2e_tests args)
          (integration_check check_fails
             (with_base_url "https://shop.example"))).
Proof.
  intros H. destruct H as (n & args & Hin); [vm_compute; discriminate|].
  rewrite integration_check_check_fails in Hin. event_cases Hin.
Qed.

(** C3 (amended): in every Integration Check run where no base URL is
    supplied, the acceptance-test step is not executed and is reported as
    skipped, not as failed, and the run succeeds exactly when checkout,
    setup and check do; in every run where a base URL is supplied, the
    acceptance-test step is executed, against that URL, exactly when the
    steps before it succeeded. *)
Theorem e2e_runs_iff_base_url (w : Outside) (c : Context) :
  (eval c (Input "playwright-base-url") = "" ->
     In (completed "Run E2E tests" skipped) (integration_check w c)
     /\ ~ In (completed "Run E2E tests" failure) (integration_check w c)
     /\ (forall n args,
           ~ In (started n e2e_tests args) (integration_check w c))
     /\ (succeeded (integration_check w c) = true
         <-> w "Checkout code" checkout [] = true
             /\ w "Setup Node.js" setup_node [("node-version", "18")] = true
             /\ w "Check (lint, typecheck, and build)" check [] = true))
  /\ (eval c (Input "playwright-base-url") <> "" ->
      forall n args,
        In (started n e2e_tests args) (integration_check w c)
        <-> n = "Run E2E tests"
            /\ args = [("base-url", eval c (Input "playwright-base-url"))]
            /\ w "Checkout code" checkout [] = true
            /\ w "Setup Node.js" setup_node [("node-version", "18")] = true
            /\ w "Check (lint, typecheck, and build)" check [] = true).
Proof.
  expose. generalize (default "" (inputs c !! "playwright-base-url")).
  intros url. split.
  - intros ->. rewrite String.eqb_refl.
    run_job; (split; [|split; [|split; [|split]]]);
      try (cbn [In]; tauto);
      try (intros Hin; event_cases Hin; fail);
      try (intros n args Hin; event_cases Hin; fail);
      vm_compute; intuition congruence.
  - intros Hurl. destruct (String.eqb_spec url "") as [->|_]; [easy|].
    intros n args. run_job; split;
      try (intros Hin; event_cases Hin; subst; tauto);
      try (intros (-> & -> & ? & ? & ?); first [congruence | cbn [In]; tauto]).
Qed.

Lemma e2e_runs_iff_base_url_witness :
  In (completed "Run E2E tests" skipped) (integration_check all_green no_inputs)
  /\ In (started "Run E2E tests" e2e_tests
           [("base-url", "https://shop.example")])
        (integration_check all_green (with_base_url "https://shop.example")).
Proof.
  split.
  - apply (proj1 (e2e_runs_iff_base_url all_green no_inputs)).
    vm_compute. reflexivity.
  - apply (proj2 (e2e_runs_iff_base_url
                    all_green (with_base_url "https://shop.example"))).
    + vm_compute. discriminate.
    + repeat split; vm_compute; reflexivity.
Defined.

(** ** Production Publisher *)

Lemma sequential_spec (evs : list Event) :
  sequential evs = true ->
  forall pre n u args post, evs = pre ++ started n u args :: post ->
    exists k post', post = completed n k :: post'.
Proof.
  induction evs as [|e evs IH]; intros Hs pre n u args post Heq.
  - destruct pre; discriminate Heq.
  - destruct pre as [|e' pre]; cbn in Heq; injection Heq as -> ->.
    + cbn in Hs. destruct post as [|[n' u' a'|n' k|k] post];
        try discriminate Hs.
      apply andb_prop in Hs as [Hn _]. apply String.eqb_eq in Hn as <-.
      eauto.
    + apply IH with (pre := pre) (u := u) (args := args); [|reflexivity].
      destruct e' as [n' u' a'|n' k|k]; cbn in Hs; try exact Hs.
      destruct (pre ++ started n u args :: post) as [|[? ? ?|? ?|?] l];
        try discriminate Hs.
      apply andb_prop in Hs as [_ Hs]. exact Hs.
Qed.

Lemma tests_follow_deploy_spec (evs : list Event) :
  forall deployed,
    tests_follow_deploy deployed evs = true ->
    forall pre n args post, evs = pre ++ started n e2e_tests args :: post ->
      deployed = true \/ In (completed "Deploy to production" success) pre.
Proof.
  induction evs as [|e evs IH]; intros d Ht pre n args post Heq.
  - destruct pre; discriminate Heq.
  - destruct pre as [|e' pre]; cbn in Heq; injection Heq as -> ->.
    + cbn [tests_follow_deploy] in Ht. rewrite String.eqb_refl in Ht.
      apply andb_prop in Ht as [Hd _]. now left.
    + destruct e' as [n' u' a'|n' k|k]; cbn [tests_follow_deploy] in Ht.
      * apply andb_prop in Ht as [_ Ht].
        destruct (IH _ Ht pre n args post eq_refl); [now left|].
        right. now right.
      * destruct k.
        -- destruct (IH _ Ht pre n args post eq_refl) as [Hd|Hin].
           ++ apply orb_prop in Hd as [Hd|Hd]; [now left|].
              apply String.eqb_eq in Hd as ->. right. now left.
           ++ right. now right.
        -- destruct (IH _ Ht pre n args post eq_refl); [now left|].
           right. now right.
        -- destruct (IH _ Ht pre n args post eq_refl); [now left|].
           right. now right.
      * destruct (IH _ Ht pre n args post eq_refl); [now left|].
        right. now right.
Qed.

Ltac expose_publisher :=
  unfold production_publisher, preview_publisher, integration_check;
  cbv [run_steps ci_steps step_name step_if step_uses step_with cond_holds
       andb negb];
  rewrite ?eval_without_base_url; cbv [String.eqb];
  cbv [succeeded concluded existsb is_failure orb negb app];
  expose.

Lemma production_publisher_checks (w : Outside) (c : Context) :
  sequential (production_publisher w c) = true
  /\ tests_follow_deploy false (production_publisher w c) = true.
Proof.
  expose_publisher.
  generalize (default "" (step_outputs c !! ("production-url", "url"))).
  intros url.
  repeat (split_answer; cbv beta iota); split; vm_compute; reflexivity.
Qed.

(** C2: in every Production Publisher run, a step that starts completes
    before anything else starts (no two steps overlap), and no
    acceptance-test step starts unless the production deployment step has
    completed successfully before it. *)
Theorem tests_wait_for_deploy
        (w : Outside) (c : Context)
        (pre post : list Event) (n u : string) (args : list (string * string)) :
  production_publisher w c = pre ++ started n u args :: post ->
  (exists k post', post = completed n k :: post')
  /\ (u = e2e_tests -> In (completed "Deploy to production" success) pre).
Proof.
  intros Heq. destruct (production_publisher_checks w c) as [Hs Ht]. split.
  - exact (sequential_spec _ Hs pre n u args post Heq).
  - intros ->.
    destruct (tests_follow_deploy_spec _ false Ht pre n args post Heq)
      as [Hd|Hin]; [discriminate Hd | exact Hin].
Qed.

Lemma tests_skipped_when_deploy_fails :
  production_publisher deploy_fails (with_base_url "https://shop.example")
  = [ started "Checkout code" checkout [];
      completed "Checkout code" success;
      started "Setup Node.js" setup_node [("node-version", "18")];
      completed "Setup Node.js" success;
      started "Check (lint, typecheck, and build)" check [];
      completed "Check (lint, typecheck, and build)" success;
      completed "Run E2E tests" skipped;
      started "Setup Node.js" setup_node [];
      completed "Setup Node.js" success;
      started "Authenticate with Shopify CLI" setup_shopify_cli [];
      completed "Authenticate with Shopify CLI" success;
      started "Deploy to production" deploy [];
      completed "Deploy to production" failure;
      completed "Run E2E tests against production" skipped ].
Proof. vm_compute. reflexivity. Qed.

Lemma tests_wait_for_deploy_witness :
  (exists k post',
      [completed "Run E2E tests against production" success]
      = completed "Run E2E tests against production" k :: post')
  /\ (e2e_tests = e2e_tests ->
      In (completed "Deploy to production" success)
         [ started "Checkout code" checkout [];
           completed "Checkout code" success;
           started "Setup Node.js" setup_node [("node-version", "18")];
           completed "Setup Node.js" success;
           started "Check (lint, typecheck, and build)" check [];
           completed "Check (lint, typecheck, and build)" success;
           completed "Run E2E tests" skipped;
           started "Setup Node.js" setup_node [];
           completed "Setup Node.js" success;
           started "Authenticate with Shopify CLI" setup_shopify_cli [];
           completed "Authenticate with Shopify CLI" success;
           started "Deploy to production" deploy [];
           completed "Deploy to production" success ]).
Proof.
  apply (tests_wait_for_deploy
           all_green (with_base_url "https://shop.example")
           _ _ "Run E2E tests against production" e2e_tests
           [("base-url", "https://shop.example")]).
  vm_compute. reflexivity.
Defined.

(** ** Rollback Agent *)



Lemma rollback_after_failure :
  List.filter is_rollback
    (on_trigger tests_fail (with_base_url "https://shop.example")
       (merge_queue_admitted r3))
  = [ {| stage := RollbackAgent;
         events :=
           [ started "Checkout previous revision" checkout [("ref", "b2e1")];
             completed "Checkout previous revision" success;
             started "Setup Node.js" setup_node [];
             completed "Setup Node.js" success;
             started "Authenticate with Shopify CLI" setup_shopify_cli [];
             completed "Authenticate with Shopify CLI" success;
             started "Redeploy" deploy [];
             completed "Redeploy" success;
             notified success ] |} ].
Proof. vm_compute. reflexivity. Qed.

Lemma no_rollback_after_success (w : Outside) (c : Context) (rev : Revision) :
  concluded (production_publisher w c) = success ->
  List.filter is_rollback (on_trigger w c (merge_queue_admitted rev)) = [].
Proof.
  intros Hk. cbn [on_trigger]. rewrite Hk. reflexivity.
Qed.







(** ** Preview Publisher *)

Lemma preview_runs_for_own_change :
  List.map stage
    (on_trigger all_green (with_base_url "https://shop.example")
       (proposed_change own_change))
  = [PreviewPublisher].
Proof. vm_compute. reflexivity. Qed.

(** C4: for a proposed change that originates outside the repository, from an
    external fork, no Preview Publisher run is started, and no run at all
    deploys anything. *)
Theorem preview_never_runs_for_forks
        (w : Outside) (c : Context) (pc : ProposedChange) :
  head_repository pc <> base_repository pc ->
  List.filter is_preview (on_trigger w c (proposed_change pc)) = []
  /\ forall r, In r (on_trigger w c (proposed_change pc)) ->
       deploys (events r) = false.
Proof.
  intros Hfork. cbn [on_trigger]. unfold same_repository.
  destruct (String.eqb_spec (head_repository pc) (base_repository pc))
    as [Heq|_]; [contradiction|].
  split; [reflexivity | intros r []].
Qed.

Lemma preview_never_runs_for_forks_witness :
  List.filter is_preview
    (on_trigger all_green (with_base_url "https://shop.example")
       (proposed_change fork_change)) = []
  /\ forall r,
      In r (on_trigger all_green (with_base_url "https://shop.example")
              (proposed_change fork_change)) ->
      deploys (events r) = false.
Proof.
  apply (preview_never_runs_for_forks
           all_green (with_base_url "https://shop.example") fork_change).
  vm_compute. discriminate.
Defined.

End WorkflowFacts.

(** * Further properties of the acceptance scenarios *)

Module CriticalRunFacts.
Import Critical CriticalRuns CriticalFacts.

(** ** A failing scenario stops at the action that failed *)

Lemma logs_ret {A : Type} (a : A) : logs_its_failure (ret a).
Proof. intros p. exists []. cbn. now rewrite app_nil_r. Qed.

Lemma logs_bind {A B : Type} (m : Test A) (k : A -> Test B) :
  logs_its_failure m ->
  (forall a, logs_its_failure (k a)) ->
  logs_its_failure (bind m k).
Proof.
  intros Hm Hk p. unfold bind. specialize (Hm p).
  destruct (m p) as [[a|e] p']; [|exact Hm].
  destruct Hm as [l Hl]. specialize (Hk a p').
  destruct (k a p') as [[b|e] p'']; destruct Hk as [l' Hl'];
    rewrite Hl', Hl.
  - exists (l ++ l'). now rewrite app_assoc.
  - exists (l ++ l'). now rewrite !app_assoc.
Qed.

Lemma logs_catch {A : Type} (m : Test A) (v : A) :
  logs_its_failure m -> logs_its_failure (catch m v).
Proof.
  intros Hm p. unfold catch. specialize (Hm p).
  destruct (m p) as [[a|e] p']; [exact Hm|].
  destruct Hm as [l Hl]. now exists (l ++ [e]).
Qed.

Ltac primitive :=
  intros p;
  cbv [page_goto page_waitForLoadState locator_count locator_getAttribute
       expect_ throw_ bind record reject log document];
  repeat match goal with
         | |- context [match ?x with _ => _ end] =>
             lazymatch x with
             | context [match _ with _ => _ end] => fail
             | _ => destruct x
             end
         end;
  first [ now exists [] | now eexists [_] ].

Lemma logs_goto (site : Site) (url : string) :
  logs_its_failure (page_goto site url).
Proof. primitive. Qed.

Lemma logs_waitForLoadState (state : string) :
  logs_its_failure (page_waitForLoadState state).
Proof. primitive. Qed.

Lemma logs_count (l : Locator) : logs_its_failure (locator_count l).
Proof. primitive. Qed.

Lemma logs_getAttribute (l : Locator) (name : string) :
  logs_its_failure (locator_getAttribute l name).
Proof. primitive. Qed.

Lemma logs_expect (m : Matcher) : logs_its_failure (expect_ m).
Proof. primitive. Qed.

Lemma logs_throw {A : Type} (msg : string) :
  logs_its_failure (@throw_ A msg).
Proof. primitive. Qed.

Ltac logging :=
  cbv zeta;
  repeat first
    [ apply logs_goto | apply logs_waitForLoadState | apply logs_count
    | apply logs_getAttribute | apply logs_expect | apply logs_throw
    | apply logs_catch | apply logs_ret
    | apply logs_bind; [|intros ?]
    | match goal with
      | |- logs_its_failure (if ?b then _ else _) => destruct b
      end ].

Lemma scenarios_log_their_failure (site : Site) (name : string)
      (t : Site -> Test unit) :
  In (name, t) critical_e2e_tests -> logs_its_failure (t site).
Proof.
  intros Hin. cbn [critical_e2e_tests In] in Hin.
  destruct Hin as [H|[H|[H|[H|[]]]]]; injection H as _ <-.
  - unfold app_loads_successfully. logging.
  - unfold homepage_renders_products. logging.
  - unfold product_page_loads_and_renders_product_details. logging.
  - unfold collections_page_loads_and_displays_products. logging.
Qed.

(** X1: when a scenario of the suite fails, the action it failed at is the
    last action of its run: nothing is attempted on the page after the
    failing step. *)
Theorem failure_is_last_action
        (site : Site) (name : string) (t : Site -> Test unit) (a : Action) :
  In (name, t) critical_e2e_tests ->
  outcome t site = failed a ->
  last (trace t site) = Some a.
Proof.
  intros Hin. unfold outcome, trace, run.
  pose proof (scenarios_log_their_failure site name t Hin
                {| document := about_blank; log := [] |}) as Hl.
  destruct (t site {| document := about_blank; log := [] |}) as [[u|e] p'];
    cbn [fst snd]; [discriminate|].
  intros [= ->]. destruct Hl as [l ->]. cbn [log app].
  apply last_snoc.
Qed.

Lemma failure_is_last_action_witness :
  last (trace homepage_renders_products empty_listing_site)
  = Some (expect (toBeGreaterThan 0 0)).
Proof.
  apply (failure_is_last_action empty_listing_site
           "homepage renders products" homepage_renders_products).
  - cbn. tauto.
  - reflexivity.
Defined.

(** ** A response other than 200 *)

(** X2: in every scenario of the suite, when the root path answers with a
    status other than 200 the run consists of the navigation and the failing
    status assertion, and of nothing else. *)
Theorem root_status_not_200_stops
        (site : Site) (name : string) (t : Site -> Test unit)
        (s : Z) (d : Document) :
  In (name, t) critical_e2e_tests ->
  site "/" = NavResolved (Some {| status := s |}) d ->
  s <> 200 ->
  run t site
  = (failed (expect (toBe (Some s) 200)),
     [goto "/"; expect (toBe (Some s) 200)]).
Proof.
  intros Hin Hsite Hs. apply Z.eqb_neq in Hs.
  cbn [critical_e2e_tests In] in Hin.
  destruct Hin as [H|[H|[H|[H|[]]]]]; injection H as _ <-;
    unfold_test; rewrite Hsite; unfold_test; rewrite Hs; reflexivity.
Qed.

Lemma root_status_not_200_stops_witness :
  run collections_page_loads_and_displays_products not_found_site
  = (failed (expect (toBe (Some 404) 200)),
     [goto "/"; expect (toBe (Some 404) 200)]).
Proof.
  apply (root_status_not_200_stops not_found_site
           "collections page loads and displays products"
           collections_page_loads_and_displays_products
           404 (healthy_document None)).
  - cbn. tauto.
  - reflexivity.
  - discriminate.
Defined.

(** ** Where the scenarios navigate *)

(** X3: the homepage scenario counts the product items only after the root
    answered 200, the page went idle, and the section heading and the
    products grid were seen. *)
Theorem homepage_counts_after_grid (site : Site) :
  In (count (locator ".product-item")) (trace homepage_renders_products site) ->
  response_status site "/" = Some 200
  /\ networkidle (landed site "/") = true
  /\ visible (getByRole "heading" "recommended products") 15000
       (landed site "/") = true
  /\ visible (locator ".recommended-products-grid") 15000
       (landed site "/") = true.
Proof.
  unfold_site. exec; intros Hin; split_membership; try discriminate; finish.
Qed.

Lemma homepage_counts_after_grid_witness :
  response_status empty_listing_site "/" = Some 200
  /\ networkidle (landed empty_listing_site "/") = true
  /\ visible (getByRole "heading" "recommended products") 15000
       (landed empty_listing_site "/") = true
  /\ visible (locator ".recommended-products-grid") 15000
       (landed empty_listing_site "/") = true.
Proof.
  apply (homepage_counts_after_grid empty_listing_site).
  vm_compute. tauto.
Defined.

(** X4: the product-detail scenario passes exactly when the homepage answers
    200, goes idle and shows the products grid and its first product item,
    that item carries a non-empty [href], and the page behind that [href]
    answers 200, goes idle and shows a heading and the product. *)
Theorem product_page_passes_iff (site : Site) :
  outcome product_page_loads_and_renders_product_details site = passed
  <-> response_status site "/" = Some 200
      /\ networkidle (landed site "/") = true
      /\ visible (locator ".recommended-products-grid") 15000
           (landed site "/") = true
      /\ visible (first (locator ".product-item")) 10000
           (landed site "/") = true
      /\ truthy (product_href site) = true
      /\ response_status site (default "" (product_href site)) = Some 200
      /\ networkidle (landed site (default "" (product_href site))) = true
      /\ visible (locator "h1") 10000
           (landed site (default "" (product_href site))) = true
      /\ visible (locator ".product") 10000
           (landed site (default "" (product_href site))) = true.
Proof.
  unfold product_href. unfold_site. exec; split; finish.
Qed.

Lemma product_page_passes_iff_witness :
  outcome product_page_loads_and_renders_product_details healthy_site = passed.
Proof.
  apply (proj2 (product_page_passes_iff healthy_site)).
  repeat split; reflexivity.
Defined.

(** Run the scenario on the left, then evaluate the right-hand side with
    the answers the run received. *)
Ltac compare_navigations :=
  match goal with
  | |- _ = ?rhs =>
      let r := fresh "rhs" in
      let Hr := fresh "Hrhs" in
      remember rhs as r eqn:Hr; exec; subst r;
      cbn [negb] in *; try discriminate;
      repeat match goal with
             | H : ?x = _ |- context [?x] => rewrite H
             end;
      cbn [navigations option_Z_eqb andb negb truthy];
      repeat match goal with
             | H : ?x = _ |- context [?x] => rewrite H
             end;
      cbn [andb negb truthy]; reflexivity
  end.

(** X5: the product-detail scenario navigates to the homepage and then, at
    most, to the [href] it read from the first product item: the second
    navigation happens exactly when the homepage checks passed and that
    [href] is non-empty, and it goes nowhere else. *)
Theorem product_page_navigations (site : Site) :
  navigations (trace product_page_loads_and_renders_product_details site)
  = if option_Z_eqb (response_status site "/") (Some 200)
       && networkidle (landed site "/")
       && visible (locator ".recommended-products-grid") 15000
            (landed site "/")
       && visible (first (locator ".product-item")) 10000 (landed site "/")
       && truthy (product_href site)
    then ["/"; default "" (product_href site)]
    else ["/"].
Proof.
  unfold product_href. unfold_site. compare_navigations.
Qed.

(** X6: the collections scenario navigates to the homepage and then, once
    the homepage answered 200 and went idle, to the collection link when its
    [href] is non-empty and to [/collections] otherwise, also when the
    lookup of the link rejects. *)
Theorem collections_page_navigations (site : Site) :
  navigations (trace collections_page_loads_and_displays_products site)
  = if option_Z_eqb (response_status site "/") (Some 200)
       && networkidle (landed site "/")
    then ["/"; if truthy (collection_href site)
               then default "" (collection_href site)
               else "/collections"]
    else ["/"].
Proof.
  unfold_site. compare_navigations.
Qed.

(** ** The product link *)

(** X7: in the product-detail scenario an empty [href] counts as a missing
    one: for every falsy value of the attribute ([null] or the empty string)
    the run fails, at the truthiness assertion once the attribute has been
    read, and its only navigation is the one to the homepage. *)
Theorem product_scenario_stops_on_falsy_href
        (site : Site) (v : option string) :
  attribute (first (locator ".product-item")) "href" (landed site "/")
  = Some v ->
  truthy v = false ->
  (exists a, outcome product_page_loads_and_renders_product_details site
             = failed a)
  /\ navigations (trace product_page_loads_and_renders_product_details site)
     = ["/"]
  /\ (In (getAttribute (first (locator ".product-item")) "href")
         (trace product_page_loads_and_renders_product_details site) ->
      outcome product_page_loads_and_renders_product_details site
      = failed (expect (toBeTruthy v))).
Proof.
  unfold_site. exec; intros Hattr Hv; use_answers;
    repeat match goal with
           | H : Some _ = Some _ |- _ => injection H as H
           | H : AttrValue _ = AttrValue _ |- _ => injection H as H
           end; subst; try discriminate; try congruence;
    (split; [eauto | split]); try reflexivity;
    intros Hin; split_membership; discriminate.
Qed.

Lemma product_scenario_stops_on_falsy_href_witness :
  (exists a, outcome product_page_loads_and_renders_product_details
               empty_href_site = failed a)
  /\ navigations
       (trace product_page_loads_and_renders_product_details empty_href_site)
     = ["/"]
  /\ (In (getAttribute (first (locator ".product-item")) "href")
         (trace product_page_loads_and_renders_product_details
            empty_href_site) ->
      outcome product_page_loads_and_renders_product_details empty_href_site
      = failed (expect (toBeTruthy (Some "")))).
Proof.
  apply (product_scenario_stops_on_falsy_href empty_href_site (Some ""));
    reflexivity.
Defined.

(** X8: a rejected [href] lookup is fatal in the product-detail scenario,
    which fails at the lookup, but never in the collections scenario, where
    the rejection is caught: no run of the collections scenario fails at an
    attribute lookup. *)
Theorem href_lookup_rejection (site : Site) :
  (forall l n,
      outcome collections_page_loads_and_displays_products site
      <> failed (getAttribute l n))
  /\ (attribute (first (locator ".product-item")) "href" (landed site "/")
      = None ->
      In (getAttribute (first (locator ".product-item")) "href")
         (trace product_page_loads_and_renders_product_details site) ->
      outcome product_page_loads_and_renders_product_details site
      = failed (getAttribute (first (locator ".product-item")) "href")).
Proof.
  split.
  - intros l n. exec; discriminate.
  - unfold_site. exec; intros Hattr Hin; split_membership;
      try discriminate; use_answers; try discriminate; try reflexivity.
Qed.

Lemma href_lookup_rejection_witness :
  outcome product_page_loads_and_renders_product_details no_attribute_site
  = failed (getAttribute (first (locator ".product-item")) "href").
Proof.
  apply (proj2 (href_lookup_rejection no_attribute_site)).
  - reflexivity.
  - vm_compute. tauto.
Defined.

(** ** Title and URL patterns *)

Lemma prefix_spec (s1 s2 : string) :
  String.prefix s1 s2 = true <-> exists post, s2 = (s1 ++ post)%string.
Proof.
  revert s2. induction s1 as [|a s1 IH]; intros s2.
  - destruct s2; cbn; split; eauto.
  - destruct s2 as [|b s2]; cbn.
    + split; [discriminate | intros [post H]; discriminate H].
    + destruct (Ascii.ascii_dec a b) as [->|Hab].
      * rewrite IH. split; intros [post H]; exists post.
        -- now rewrite H.
        -- now injection H.
      * split; [discriminate|]. intros [post H]. injection H as H _.
        congruence.
Qed.

Lemma includes_spec (needle hay : string) :
  includes needle hay = true
  <-> exists pre post, hay = (pre ++ needle ++ post)%string.
Proof.
  induction hay as [|c hay IH]; cbn [includes].
  - destruct (String.prefix needle "") eqn:Hp.
    + apply prefix_spec in Hp as [post Hp]. split; [|reflexivity].
      intros _. exists "", post. exact Hp.
    + split; [discriminate|]. intros (pre & post & H).
      destruct pre; [|discriminate H]. cbn in H.
      assert (String.prefix needle "" = true)
        by (apply prefix_spec; now exists post).
      congruence.
  - destruct (String.prefix needle (String c hay)) eqn:Hp.
    + apply prefix_spec in Hp as [post Hp]. split; [|reflexivity].
      intros _. exists "", post. exact Hp.
    + rewrite IH. split.
      * intros (pre & post & ->). now exists (String c pre), post.
      * intros (pre & post & H). destruct pre as [|c' pre]; cbn in H.
        -- assert (String.prefix needle (String c hay) = true)
             by (apply prefix_spec; now exists post).
           congruence.
        -- injection H as _ ->. now exists pre, post.
Qed.

(** X9: the title assertion [toHaveTitle(/Hydrogen/)] and the URL assertion
    [toHaveURL(/collections/)] are not anchored: they hold exactly when one
    of the values polled within the timeout contains the pattern somewhere,
    whatever comes before or after it. *)
Theorem pattern_assertions_match_anywhere
        (d : Document) (re : string) (t : Z) :
  (holds d (toHaveTitle re t) = true
   <-> exists title pre post,
         In title (doc_title_polls d t)
         /\ title = (pre ++ re ++ post)%string)
  /\ (holds d (toHaveURL re t) = true
      <-> exists url pre post,
            In url (doc_url_polls d t)
            /\ url = (pre ++ re ++ post)%string).
Proof.
  cbn [holds]. split; rewrite existsb_exists; split.
  - intros (x & Hin & Hx). apply includes_spec in Hx as (pre & post & ->).
    eauto.
  - intros (x & pre & post & Hin & ->). exists (pre ++ re ++ post)%string.
    split; [exact Hin | apply includes_spec; eauto].
  - intros (x & Hin & Hx). apply includes_spec in Hx as (pre & post & ->).
    eauto.
  - intros (x & pre & post & Hin & ->). exists (pre ++ re ++ post)%string.
    split; [exact Hin | apply includes_spec; eauto].
Qed.

End CriticalRunFacts.
